(** * ember-argument-types: the validators of [addon/-private/validators.js]

    A shallow embedding of the seven validator constructors and of the
    helpers they import, followed by the properties of the validator
    contract: what a failed check returns, when a call completes abruptly,
    and how the composites order and report their children's failures. *)

From Stdlib Require Import String Ascii List Bool Arith ZArith NArith Lia.
From Stdlib Require Import Floats Uint63.
From Stdlib Require Import DecimalString.
Import ListNotations.
Local Open Scope list_scope.
Local Open Scope string_scope.

Set Implicit Arguments.
#[local] Set Warnings "-register-all".

(** ** JavaScript values

    Objects, arrays and functions are reference values: [ref] is their
    identity, the only thing [===] looks at.  [chain] lists the references of
    the constructors whose [prototype] lies on the value's prototype chain,
    which is what [instanceof] consults.  A function records whether its
    [prototype] property is an object (true of classes and of ordinary
    functions, false of arrow functions and methods).  Numbers are IEEE
    doubles; a symbol is its identity and description. *)

Record header : Type := Header { ref : nat; chain : list nat }.

Inductive value : Type :=
| VUndefined
| VNull
| VBoolean (b : bool)
| VNumber (x : float)
| VString (s : string)
| VSymbol (id : nat) (description : option string)
| VBigInt (z : Z)
| VFunction (h : header) (name : option string) (prototype : bool)
| VObject (h : header) (props : list (string * value))
| VArray (h : header) (items : list value).

(** The [typeof] operator. *)
Definition typeof (v : value) : string :=
  match v with
  | VUndefined => "undefined"
  | VNull => "object"
  | VBoolean _ => "boolean"
  | VNumber _ => "number"
  | VString _ => "string"
  | VSymbol _ _ => "symbol"
  | VBigInt _ => "bigint"
  | VFunction _ _ _ => "function"
  | VObject _ _ => "object"
  | VArray _ _ => "object"
  end.

Definition header_of (v : value) : option header :=
  match v with
  | VFunction h _ _ | VObject h _ | VArray h _ => Some h
  | _ => None
  end.

(** [a === b]: IEEE comparison on numbers (so [NaN] differs from itself and
    the two zeros are equal), identity on reference values, no coercion. *)
Definition strict_equal (a b : value) : bool :=
  match a, b with
  | VUndefined, VUndefined => true
  | VNull, VNull => true
  | VBoolean x, VBoolean y => Bool.eqb x y
  | VNumber x, VNumber y => PrimFloat.eqb x y
  | VString x, VString y => String.eqb x y
  | VSymbol x _, VSymbol y _ => Nat.eqb x y
  | VBigInt x, VBigInt y => Z.eqb x y
  | VFunction h _ _, VFunction k _ _
  | VObject h _, VObject k _
  | VArray h _, VArray k _ => Nat.eqb (ref h) (ref k)
  | _, _ => false
  end.

(** SameValueZero, the comparison of [Array.prototype.includes]: as [===]
    except that [NaN] is the same value as [NaN]. *)
Definition same_value_zero (a b : value) : bool :=
  match a, b with
  | VNumber x, VNumber y => PrimFloat.eqb x y || (is_nan x && is_nan y)
  | _, _ => strict_equal a b
  end.

(** [Array.prototype.includes]. *)
Definition includes (l : list value) (v : value) : bool :=
  existsb (fun a => same_value_zero a v) l.

Definition is_NaN (v : value) : bool :=
  match v with
  | VNumber x => is_nan x
  | _ => false
  end.

(** ** Completions

    A call returns a value, throws, or never comes back. *)

Inductive exn : Type :=
| TypeError (what : string).

Inductive completion (A : Type) : Type :=
| Return (a : A)
| Throw (e : exn)
| Diverge.

Arguments Return {A} a.
Arguments Throw {A} e.
Arguments Diverge {A}.

Definition bind {A B : Type} (c : completion A) (k : A -> completion B)
  : completion B :=
  match c with
  | Return a => k a
  | Throw e => Throw e
  | Diverge => Diverge
  end.

Notation "x <- c ;; k" := (bind c (fun x => k))
  (at level 61, c at next level, right associativity).

Fixpoint mapM {A B : Type} (f : A -> completion B) (l : list A)
  : completion (list B) :=
  match l with
  | [] => Return []
  | a :: rest =>
      b <- f a ;;
      bs <- mapM f rest ;;
      Return (b :: bs)
  end.

(** ** Context paths *)

(** Modelled from the spec: [createContextPath] of [./utils], which is not
    among the sources.  A producer is determined by its base string: called
    without an argument it returns the base ([call_context]); called with a
    segment it returns a new producer whose base is the old base joined with
    the segment by a dot, or the segment alone when the base is empty
    ([extend_context]). *)
Record ContextProducer : Type := createContextPath { base : string }.

Definition call_context (c : ContextProducer) : string := base c.

Definition extend_context (c : ContextProducer) (segment : string)
  : ContextProducer :=
  if String.eqb (base c) "" then createContextPath segment
  else createContextPath (base c ++ "." ++ segment).

(** ** What a validator returns

    [undefined] when the function falls off its end, a bare message string,
    or the two-element array [[message, context]]. *)
Inductive result : Type :=
| RUndefined
| RMessage (message : string)
| RPair (message : string) (context : ContextProducer).

(** Truthiness, as tested by [if (error)] and [if (!error)]: [undefined] and
    the empty string are falsy, every array is truthy. *)
Definition truthy (r : result) : bool :=
  match r with
  | RUndefined => false
  | RMessage s => negb (String.eqb s "")
  | RPair _ _ => true
  end.

Definition Validator : Type := value -> ContextProducer -> completion result.

(** ** Validator specifications

    The closed variant behind the dispatch of [ensureValidator]: a type
    name, a validator function, a mapping from field names to specifications
    (in the order [Object.keys] lists the keys), or a literal. *)
Inductive ValidatorSpec : Type :=
| TypeName (name : string)
| ValidatorFn (f : Validator)
| ShapeMap (fields : list (string * ValidatorSpec))
| Literal (v : value).

(** Modelled from the spec: the property accessor [get] of [@ember/object],
    an external collaborator: the named property of an object, or
    [undefined] when there is none.  A key is one property name; an array
    has its indices and its [length]. *)
Fixpoint lookup (key : string) (props : list (string * value)) : value :=
  match props with
  | [] => VUndefined
  | (k, v) :: rest => if String.eqb k key then v else lookup key rest
  end.

Definition number_of_nat (n : nat) : float :=
  PrimFloat.of_uint63 (Uint63.of_Z (Z.of_nat n)).

Definition index_string (i : nat) : string :=
  NilEmpty.string_of_uint (Nat.to_uint i).

Fixpoint lookup_index (key : string) (i : nat) (items : list value) : value :=
  match items with
  | [] => VUndefined
  | v :: rest =>
      if String.eqb (index_string i) key then v
      else lookup_index key (S i) rest
  end.

Definition get (object : value) (key : string) : value :=
  match object with
  | VObject _ props => lookup key props
  | VArray _ items =>
      if String.eqb key "length" then VNumber (number_of_nat (length items))
      else lookup_index key 0 items
  | _ => VUndefined
  end.

(** ** Arrays and array-likes *)

(** ToBoolean. *)
Definition to_boolean (v : value) : bool :=
  match v with
  | VUndefined | VNull => false
  | VBoolean b => b
  | VNumber x => negb (is_nan x || PrimFloat.eqb x 0)
  | VString s => negb (String.eqb s "")
  | VBigInt z => negb (Z.eqb z 0)
  | _ => true
  end.

(** Modelled from the spec: [isArray] of [@ember/array], an external
    collaborator; the spec has the array validator assert that the value is
    array-like.  As the library decides it: a native array, or an object
    (with no truthy [setInterval]) whose [length] is a number other than
    [NaN]. *)
Definition isArray (obj : value) : bool :=
  match obj with
  | VArray _ _ => true
  | VObject _ props =>
      if to_boolean (lookup "setInterval" props) then false
      else match lookup "length" props with
           | VNumber len => negb (is_nan len)
           | _ => false
           end
  | _ => false
  end.

(** From [2^53] on, [i++] leaves [i] where it is. *)
Definition limit : N := 9007199254740992.

(** The least integer not below [m * 2^e]. *)
Definition ceiling (m : positive) (e : Z) : N :=
  match e with
  | Z0 => Npos m
  | Zpos k => Npos (m * 2 ^ k)%positive
  | Zneg k => ((Npos m + Npos (2 ^ k)%positive - 1) / Npos (2 ^ k)%positive)%N
  end.

(** How many times [i < len] holds as [i] counts up from 0; [None] when it
    holds forever, [i] being stuck at [limit]. *)
Definition steps (len : float) : option N :=
  match Prim2SF len with
  | S754_finite false m e =>
      if N.leb (ceiling m e) limit then Some (ceiling m e) else None
  | S754_infinity false => None
  | _ => Some 0%N
  end.

(** The same for [i < values.length]. *)
Definition extent (values : value) : option N :=
  match values with
  | VArray _ items => Some (N.of_nat (length items))
  | VObject _ props =>
      match lookup "length" props with
      | VNumber len => steps len
      | _ => Some 0%N
      end
  | _ => Some 0%N
  end.

(** [values[i]], the index given as a string. *)
Definition item_at (values : value) (index : string) : value :=
  match values with
  | VObject _ props => lookup index props
  | VArray _ items => lookup_index index 0 items
  | _ => VUndefined
  end.

(** The elements the loop visits while [i] still grows. *)
Definition elements (values : value) : list value :=
  match values with
  | VArray _ items => items
  | _ =>
      map (fun i => item_at values (index_string i))
          (seq 0 (N.to_nat (match extent values with
                            | Some n => n
                            | None => limit
                            end)))
  end.

(** ** [instanceof] *)

Definition not_an_object : exn :=
  TypeError "Right-hand side of 'instanceof' is not an object".

Definition not_callable : exn :=
  TypeError "Right-hand side of 'instanceof' is not callable".

Definition no_prototype : exn :=
  TypeError "Function has non-object prototype 'undefined' in instanceof check".

(** [v instanceof klass]: a [TypeError] when [klass] is a primitive or an
    object that cannot be called; [false] for a primitive [v]; a [TypeError]
    when the function's [prototype] is no object; otherwise whether that
    prototype lies on the chain of [v]. *)
Definition instance_of (v klass : value) : completion bool :=
  match klass with
  | VFunction k _ prototype =>
      match header_of v with
      | None => Return false
      | Some h =>
          if prototype then Return (existsb (Nat.eqb (ref k)) (chain h))
          else Throw no_prototype
      end
  | VObject _ _ | VArray _ _ => Throw not_callable
  | _ => Throw not_an_object
  end.

(** ** The validators *)

Definition nl : string := String (ascii_of_nat 10) "".

Section Validators.

(** [typeOf] and [toString] of [./utils] only feed the messages; they are
    taken as they come. *)
Variable typeOf : value -> string.
Variable toString : value -> string.

(** Validator to handle type checking via typeof. *)
Definition createTypeValidator (expectedType : string) : Validator :=
  fun value _ =>
    if negb (String.eqb (typeof value) expectedType) then
      Return (RMessage ("Expected type " ++ expectedType
                        ++ " but received " ++ typeOf value))
    else Return RUndefined.

(** Validator to handle strict equality checking. *)
Definition createEqualityValidator (expectedValue : value) : Validator :=
  fun value _ =>
    if negb (strict_equal value expectedValue) then
      Return (RMessage ("Expected value to equal " ++ toString expectedValue
                        ++ " but received " ++ toString value))
    else Return RUndefined.

(** [klass.name ?? toString(klass)] *)
Definition klass_name (klass : value) : string :=
  match klass with
  | VFunction _ (Some name) _ => name
  | _ => toString klass
  end.

(** Validator to handle instanceof checking. *)
Definition createInstanceOfValidator (klass : value) : Validator :=
  fun value context =>
    instance <- instance_of value klass ;;
    if negb instance then
      Return (RPair ("Expected value to be an instance of "
                     ++ klass_name klass ++ " but received "
                     ++ toString value) context)
    else Return RUndefined.

Section Loops.

Variable ensure : ValidatorSpec -> Validator.

(** The [for (const key of Object.keys(validators))] loop of the shape
    validator. *)
Fixpoint shape_fields (validators : list (string * ValidatorSpec))
         (value : value) (context : ContextProducer) : completion result :=
  match validators with
  | [] => Return RUndefined
  | (key, validator) :: rest =>
      let nextContext := createContextPath (call_context context) in
      error <- ensure validator (get value key)
                      (extend_context nextContext key) ;;
      if truthy error then Return error
      else shape_fields rest value context
  end.

(** The [for (let i = 0; i < values.length; i++)] loop of the array
    validator, from index [i] on. *)
Fixpoint array_items (validator : ValidatorSpec) (i : nat)
         (values : list value) (context : ContextProducer)
  : completion result :=
  match values with
  | [] => Return RUndefined
  | item :: rest =>
      let nextContext := createContextPath (call_context context) in
      error <- ensure validator item
                      (extend_context nextContext (index_string i)) ;;
      if truthy error then Return error
      else array_items validator (S i) rest context
  end.

(** The loop once [i] is stuck at [limit] below [values.length]: the same
    element is checked again and again, so the first check decides: its
    error is returned, or the loop never ends. *)
Definition array_stuck (validator : ValidatorSpec) (values : value)
           (context : ContextProducer) : completion result :=
  let nextContext := createContextPath (call_context context) in
  let index := NilEmpty.string_of_uint (N.to_uint limit) in
  error <- ensure validator (item_at values index)
                  (extend_context nextContext index) ;;
  if truthy error then Return error else Diverge.

(** The arrow function [([error, context]) => `${context()} |> ${error}`]:
    destructuring a string binds [context] to its second character (or
    to [undefined]), and calling that throws. *)
Definition describe (error : result) : completion string :=
  match error with
  | RPair message context =>
      Return (call_context context ++ " |> " ++ message)
  | RMessage _ => Throw (TypeError "context is not a function")
  | RUndefined => Throw (TypeError "undefined is not iterable")
  end.

(** The [for (const validator of validators)] loop of the union
    validator, with the errors pushed so far; [None] is the early
    [return;]. *)
Fixpoint union_alternatives (validators : list ValidatorSpec)
         (errors : list result) (value : value) (context : ContextProducer)
  : completion (option (list result)) :=
  match validators with
  | [] => Return (Some errors)
  | validator :: rest =>
      error <- ensure validator value context ;;
      if negb (truthy error) then Return None
      else union_alternatives rest (errors ++ [error])%list value context
  end.

End Loops.

(** What the resolver makes of a validator: on failure the error goes out
    as the pair of message and path, a bare message being paired with the
    context of the call; on success nothing is returned. *)
Definition paired (validator : Validator) : Validator :=
  fun value context =>
    error <- validator value context ;;
    if truthy error then
      match error with
      | RMessage message => Return (RPair message context)
      | _ => Return error
      end
    else Return RUndefined.

(** Modelled from the spec: [ensureValidator] of [./utils], which is not
    among the sources.  A string resolves to the type validator, a function
    to itself, a mapping to the shape validator (whose body is written out
    here, see [ensureValidator_shape]), anything else to the equality
    validator; the resolved validator returns a structured error, message
    and path, on failure and nothing on success ([paired]). *)
Fixpoint ensureValidator (spec : ValidatorSpec) : Validator :=
  match spec with
  | TypeName name => paired (createTypeValidator name)
  | ValidatorFn f => paired f
  | ShapeMap validators =>
      paired
        (fun value context =>
           error <- paired (createTypeValidator "object") value context ;;
           if truthy error then Return error
           else if strict_equal value VNull then
             Return (RPair "Expected value to be a non-null object but received null"
                           context)
           else shape_fields ensureValidator validators value context)
  | Literal expectedValue => paired (createEqualityValidator expectedValue)
  end.

(** Validator to structurally type check an object. *)
Definition createShapeValidator (validators : list (string * ValidatorSpec))
  : Validator :=
  fun value context =>
    error <- ensureValidator (TypeName "object") value context ;;
    if truthy error then Return error
    else if strict_equal value VNull then
      Return (RPair "Expected value to be a non-null object but received null"
                    context)
    else shape_fields ensureValidator validators value context.

(** Validator to type check all items in an array.  The loop runs over the
    elements reached while [i] grows; when [values.length] lies beyond
    [limit] it goes on at the index where [i] is stuck. *)
Definition createArrayValidator (validator : ValidatorSpec) : Validator :=
  fun values context =>
    if negb (isArray values) then
      Return (RPair ("Expected type array but received " ++ typeOf values)
                    context)
    else
      error <- array_items ensureValidator validator 0 (elements values)
                           context ;;
      if truthy error then Return error
      else match extent values with
           | Some _ => Return RUndefined
           | None => array_stuck ensureValidator validator values context
           end.

(** Validator to type check a value against an allowed set of values. *)
Definition createOneOfValidator (allowedValues : list value) : Validator :=
  fun value context =>
    if negb (includes allowedValues value) then
      Return (RPair ("Expected the value to be"
                     ++ (if Nat.ltb 1 (length allowedValues) then " one of"
                         else "")
                     ++ " " ++ String.concat ", " (map toString allowedValues)
                     ++ " but received " ++ toString value) context)
    else Return RUndefined.

Definition union_header : string :=
  "Expected the value to pass one of the provided validators:" ++ nl.

(** Validator to type check a value against multiple validators. *)
Definition createUnionOfValidator (validators : list ValidatorSpec)
  : Validator :=
  fun value context =>
    outcome <- union_alternatives ensureValidator validators [] value context ;;
    match outcome with
    | None => Return RUndefined
    | Some errors =>
        lines <- mapM describe errors ;;
        Return (RPair (union_header ++ String.concat nl lines) context)
    end.

End Validators.

(** ** Passing and failing

    Under the resolver [ensure], the validator of [s] reports no error on
    [v], or reports the error [e]. *)
Definition passes (ensure : ValidatorSpec -> Validator) (s : ValidatorSpec)
           (v : value) (c : ContextProducer) : Prop :=
  exists r, ensure s v c = Return r /\ truthy r = false.

Definition fails_with (ensure : ValidatorSpec -> Validator) (s : ValidatorSpec)
           (v : value) (c : ContextProducer) (e : result) : Prop :=
  ensure s v c = Return e /\ truthy e = true.

(** ** The message helpers, for running the validators *)

Module Utils.

(** Modelled from the spec: [typeOf] of [./utils], which is not among the
    sources: the display kind of a value, finer than [typeof] in that
    [null] and arrays are told apart from objects. *)
Definition typeOf (v : value) : string :=
  match v with
  | VNull => "null"
  | VArray _ _ => "array"
  | _ => typeof v
  end.

Definition quote : string := String (ascii_of_nat 34) "".

Definition decimal (n : N) : string :=
  NilEmpty.string_of_uint (N.to_uint n).

Definition integer (z : Z) : string :=
  match z with
  | Zneg p => "-" ++ decimal (Npos p)
  | _ => decimal (Z.to_N z)
  end.

(** The string form of a number whose value is [m * 2^e]: the decimal
    digits when that is an integer, and the pair mantissa, exponent
    otherwise (where the host prints the shortest decimal that reads back
    as the same double; no result below looks at such a message). *)
Definition finite_string (m : positive) (e : Z) : string :=
  match e with
  | Z0 => decimal (Npos m)
  | Zpos k => decimal (Npos (m * 2 ^ k)%positive)
  | Zneg k =>
      if N.eqb (N.modulo (Npos m) (Npos (2 ^ k)%positive)) 0
      then decimal (N.div (Npos m) (Npos (2 ^ k)%positive))
      else decimal (Npos m) ++ "p-" ++ decimal (Npos k)
  end.

Definition number_string (x : float) : string :=
  match Prim2SF x with
  | S754_nan => "NaN"
  | S754_infinity sign => if sign then "-Infinity" else "Infinity"
  | S754_zero _ => "0"
  | S754_finite sign m e => (if sign then "-" else "") ++ finite_string m e
  end.

(** Modelled from the spec: [toString] of [./utils], which is not among the
    sources: strings are quoted, a function renders as its name when it
    has one and as a generic token otherwise, an array element-wise in
    brackets, a plain object as its key: value pairs, anything else in its
    own string form. *)
Fixpoint toString (v : value) : string :=
  match v with
  | VUndefined => "undefined"
  | VNull => "null"
  | VBoolean b => if b then "true" else "false"
  | VNumber x => number_string x
  | VString s => quote ++ s ++ quote
  | VSymbol _ (Some description) => "Symbol(" ++ description ++ ")"
  | VSymbol _ None => "Symbol()"
  | VBigInt z => integer z
  | VFunction _ (Some name) _ => name
  | VFunction _ None _ => "Function"
  | VObject _ props =>
      "{" ++ String.concat ", "
               (map (fun '(k, p) => k ++ ": " ++ toString p) props) ++ "}"
  | VArray _ items => "[" ++ String.concat ", " (map toString items) ++ "]"
  end.

End Utils.

(** The validators with the helpers above, and the root context. *)
Definition equalityValidator := createEqualityValidator Utils.toString.
Definition shapeValidator := createShapeValidator Utils.typeOf Utils.toString.
Definition arrayValidator := createArrayValidator Utils.typeOf Utils.toString.
Definition oneOfValidator := createOneOfValidator Utils.toString.
Definition unionOfValidator := createUnionOfValidator Utils.typeOf Utils.toString.
Definition root : ContextProducer := createContextPath "".

Definition fresh (n : nat) : header := Header n [].

(** One line of the union's message, and the pair it is made from. *)
Definition line_of (error : string * ContextProducer) : string :=
  call_context (snd error) ++ " |> " ++ fst error.

Definition pair_of (error : string * ContextProducer) : result :=
  RPair (fst error) (snd error).

(** A validator function that throws whenever it is called. *)
Definition explode : Validator :=
  fun _ _ => Throw (TypeError "must not be called").

(** The context a shape or array validator hands to the validator of a
    field or index. *)
Definition field_context (c : ContextProducer) (key : string) : ContextProducer :=
  extend_context (createContextPath (call_context c)) key.


(** The message of the one-of validator. *)
Definition one_of_message (toString : value -> string)
           (allowedValues : list value) (v : value) : string :=
  "Expected the value to be"
  ++ (if Nat.ltb 1 (length allowedValues) then " one of" else "")
  ++ " " ++ String.concat ", " (map toString allowedValues)
  ++ " but received " ++ toString v.

(** The path a producer reports after it is extended by a segment. *)
Definition joined (path segment : string) : string :=
  if String.eqb path "" then segment else path ++ "." ++ segment.

(** The message of the type validator. *)
Definition type_message (typeOf : value -> string) (expectedType : string)
           (v : value) : string :=
  "Expected type " ++ expectedType ++ " but received " ++ typeOf v.

(** A specification whose validator functions keep to the contract: none
    of them throws. *)
Inductive conforming : ValidatorSpec -> Prop :=
| conforming_type : forall name, conforming (TypeName name)
| conforming_function :
    forall f : Validator,
      (forall v c e, f v c <> Throw e) -> conforming (ValidatorFn f)
| conforming_shape :
    forall fields,
      Forall (fun kv => conforming (snd kv)) fields ->
      conforming (ShapeMap fields)
| conforming_literal : forall v, conforming (Literal v).

(** An error that is a pair of message and context producer. *)
Definition is_pair (e : result) : Prop := exists m k, e = RPair m k.

(** A class: a function whose [prototype] is an object. *)
Definition is_class (klass : value) : bool :=
  match klass with
  | VFunction _ _ prototype => prototype
  | _ => false
  end.

(** * Properties *)

(** ** The loops, for any resolver *)

Section LoopFacts.

Variable ensure : ValidatorSpec -> Validator.

Lemma union_alternatives_all_fail :
  forall validators errors acc v c,
    Forall2 (fun s e => fails_with ensure s v c e) validators errors ->
    union_alternatives ensure validators acc v c
    = Return (Some (acc ++ errors)%list).
Proof.
  induction validators as [|s rest IH]; intros errors acc v c H;
    inversion H as [|s' e rest' errs' [Hs He] Hrest]; subst; simpl.
  - now rewrite app_nil_r.
  - rewrite Hs. simpl. rewrite He. simpl.
    rewrite (IH errs' (acc ++ [e])%list v c Hrest).
    now rewrite <- app_assoc.
Qed.

Lemma union_alternatives_first_pass :
  forall before alternative after acc v c,
    Forall (fun s => exists e, fails_with ensure s v c e) before ->
    passes ensure alternative v c ->
    union_alternatives ensure (before ++ alternative :: after) acc v c
    = Return None.
Proof.
  induction before as [|s rest IH]; intros alternative after acc v c Hb Hp;
    simpl.
  - destruct Hp as [r [Hr Ht]]. rewrite Hr. simpl. now rewrite Ht.
  - inversion Hb as [|s' rest' [e [Hs He]] Hrest]; subst.
    rewrite Hs. simpl. rewrite He. simpl. now apply IH.
Qed.

Lemma shape_fields_first_failure :
  forall before key validator after v c e,
    Forall (fun kv => passes ensure (snd kv) (get v (fst kv))
                        (extend_context (createContextPath (call_context c))
                                        (fst kv))) before ->
    fails_with ensure validator (get v key)
               (extend_context (createContextPath (call_context c)) key) e ->
    shape_fields ensure (before ++ (key, validator) :: after) v c = Return e.
Proof.
  induction before as [|[k s] rest IH]; intros key validator after v c e Hb Hf;
    simpl.
  - destruct Hf as [Hs He]. rewrite Hs. simpl. now rewrite He.
  - inversion Hb as [|kv rest' [r [Hr Ht]] Hrest]; subst. simpl in Hr.
    rewrite Hr. simpl. rewrite Ht. now apply IH.
Qed.

Lemma shape_fields_all_pass :
  forall validators v c,
    Forall (fun kv => passes ensure (snd kv) (get v (fst kv))
                        (extend_context (createContextPath (call_context c))
                                        (fst kv))) validators ->
    shape_fields ensure validators v c = Return RUndefined.
Proof.
  induction validators as [|[k s] rest IH]; intros v c H; simpl; [reflexivity|].
  inversion H as [|kv rest' [r [Hr Ht]] Hrest]; subst. simpl in Hr.
  rewrite Hr. simpl. rewrite Ht. now apply IH.
Qed.

Lemma array_items_first_failure :
  forall before item after validator i c e,
    Forall (fun jv => passes ensure validator (snd jv)
                        (extend_context (createContextPath (call_context c))
                                        (index_string (fst jv))))
           (combine (seq i (length before)) before) ->
    fails_with ensure validator item
               (extend_context (createContextPath (call_context c))
                               (index_string (i + length before))) e ->
    array_items ensure validator i (before ++ item :: after) c = Return e.
Proof.
  induction before as [|x rest IH]; intros item after validator i c e Hb Hf;
    simpl in *.
  - rewrite Nat.add_0_r in Hf. destruct Hf as [Hs He].
    rewrite Hs. simpl. now rewrite He.
  - inversion Hb as [|jv rest' [r [Hr Ht]] Hrest]; subst. simpl in Hr.
    rewrite Hr. simpl. rewrite Ht. apply IH; [exact Hrest|].
    now replace (S i + length rest) with (i + S (length rest)) by lia.
Qed.

Lemma array_items_all_pass :
  forall values validator i c,
    Forall (fun jv => passes ensure validator (snd jv)
                        (extend_context (createContextPath (call_context c))
                                        (index_string (fst jv))))
           (combine (seq i (length values)) values) ->
    array_items ensure validator i values c = Return RUndefined.
Proof.
  induction values as [|x rest IH]; intros validator i c H; simpl in *;
    [reflexivity|].
  inversion H as [|jv rest' [r [Hr Ht]] Hrest]; subst. simpl in Hr.
  rewrite Hr. simpl. rewrite Ht. now apply IH.
Qed.

End LoopFacts.

(** ** Resolution *)

(** The shape case of [ensureValidator] is the resolved shape validator. *)
Lemma ensureValidator_shape :
  forall typeOf toString validators,
    ensureValidator typeOf toString (ShapeMap validators)
    = paired (createShapeValidator typeOf toString validators).
Proof. reflexivity. Qed.

Lemma ensureValidator_paired :
  forall typeOf toString s,
    exists f, ensureValidator typeOf toString s = paired f.
Proof. intros typeOf toString [t|f|fields|x]; eexists; reflexivity. Qed.

Lemma paired_failure :
  forall f v c e,
    paired f v c = Return e -> truthy e = true -> exists m k, e = RPair m k.
Proof.
  intros f v c e. unfold paired.
  destruct (f v c) as [r|x|]; simpl; try discriminate.
  destruct r as [|m|m k]; simpl.
  - intros H Ht. injection H as <-. discriminate Ht.
  - destruct (negb (String.eqb m "")); intros H Ht; injection H as <-.
    + now eexists; eexists.
    + discriminate Ht.
  - intros H _. injection H as <-. now eexists; eexists.
Qed.

Lemma paired_no_throw :
  forall f v c,
    (forall e, f v c <> Throw e) -> forall e, paired f v c <> Throw e.
Proof.
  intros f v c H e. unfold paired.
  destruct (f v c) as [r|x|] eqn:E; simpl.
  - destruct (truthy r); [destruct r|]; discriminate.
  - now elim (H x).
  - discriminate.
Qed.

(** A failure of a resolved validator is a pair. *)
Lemma resolved_failure :
  forall typeOf toString s v c e,
    fails_with (ensureValidator typeOf toString) s v c e ->
    exists m k, e = RPair m k.
Proof.
  intros typeOf toString s v c e [H Ht].
  destruct (ensureValidator_paired typeOf toString s) as [f Hf].
  rewrite Hf in H. exact (paired_failure f v c H Ht).
Qed.

(** A resolved type name: nothing on a match, the type validator's message
    paired with the context of the call otherwise. *)
Lemma resolved_type_name :
  forall typeOf toString t v c,
    ensureValidator typeOf toString (TypeName t) v c
    = if String.eqb (typeof v) t then Return RUndefined
      else Return (RPair (type_message typeOf t v) c).
Proof.
  intros typeOf toString t v c. simpl. unfold paired, createTypeValidator.
  destruct (String.eqb (typeof v) t); reflexivity.
Qed.

(** ** Strict equality and membership *)

Lemma strict_equal_refl :
  forall x, is_NaN x = false -> strict_equal x x = true.
Proof.
  intros [| |b|x|s|id description|z|h name prototype|h props|h items] H;
    simpl in *; try reflexivity; try apply Nat.eqb_refl.
  - now destruct b.
  - unfold is_nan in H. now apply negb_false_iff in H.
  - apply String.eqb_refl.
  - apply Z.eqb_refl.
Qed.

Lemma same_value_zero_spec :
  forall a v,
    same_value_zero a v = true <->
    strict_equal a v = true \/ (is_NaN a = true /\ is_NaN v = true).
Proof.
  intros a v; destruct a, v; simpl;
    try (rewrite orb_true_iff, andb_true_iff; tauto);
    (split;
     [ intro H; now left
     | intros [H|[H1 H2]];
       [exact H | first [discriminate H1 | discriminate H2]] ]).
Qed.

Lemma includes_spec :
  forall allowedValues v,
    includes allowedValues v = true <->
    exists a, In a allowedValues /\
              (strict_equal a v = true \/ (is_NaN a = true /\ is_NaN v = true)).
Proof.
  intros allowedValues v. unfold includes. rewrite existsb_exists.
  split; intros [a [Hin H]]; exists a; (split; [exact Hin|]);
    now apply same_value_zero_spec.
Qed.

(** ** The type validator *)

(** C9: the type validator returns no error exactly when [typeof] of the
    value is the expected type name, and returns a non-empty message
    otherwise; for the name string, the string x passes and the number 42
    fails. *)
Theorem type_validator_exact :
  forall typeOf t v c,
    (createTypeValidator typeOf t v c = Return RUndefined <-> typeof v = t)
    /\ (exists r, createTypeValidator typeOf t v c = Return r
                  /\ (truthy r = false <-> typeof v = t))
    /\ createTypeValidator typeOf "string" (VString "x") c = Return RUndefined
    /\ createTypeValidator typeOf "string" (VNumber 42) c
       = Return (RMessage ("Expected type string but received "
                           ++ typeOf (VNumber 42))).
Proof.
  intros typeOf t v c. unfold createTypeValidator.
  destruct (String.eqb_spec (typeof v) t) as [E|E]; simpl.
  - repeat split; try (intros _; exact E).
    exists RUndefined. repeat split. intros _; exact E.
  - repeat split; try discriminate; try (intro H; now elim E).
    eexists. split; [reflexivity|]. simpl. split; [discriminate|].
    intro H; now elim E.
Qed.



(** The validators that take a context return the pair themselves. *)
Lemma instance_of_validator_returns_pair :
  forall toString k name v c,
    instance_of v (VFunction k name true) = Return false ->
    createInstanceOfValidator toString (VFunction k name true) v c
    = Return (RPair ("Expected value to be an instance of "
                     ++ klass_name toString (VFunction k name true)
                     ++ " but received " ++ toString v) c).
Proof.
  intros toString k name v c H. unfold createInstanceOfValidator. now rewrite H.
Qed.

(** ** The equality validator *)

(** C4 (as the code has it): the equality validator accepts [x] against
    itself for every [x] other than [NaN]. *)
Theorem equality_validator_reflexive_except_NaN :
  forall toString x c,
    is_NaN x = false ->
    createEqualityValidator toString x x c = Return RUndefined.
Proof.
  intros toString x c H. unfold createEqualityValidator.
  now rewrite (strict_equal_refl x H).
Qed.

Lemma equality_validator_reflexive_witness :
  is_NaN (VNumber 42) = false
  /\ equalityValidator (VNumber 42) (VNumber 42) root = Return RUndefined.
Proof.
  split; [reflexivity|].
  apply (@equality_validator_reflexive_except_NaN Utils.toString
           (VNumber 42) root).
  reflexivity.
Defined.

(** C4, as stated, fails at [NaN]: [NaN !== NaN], so the validator built
    from [NaN] rejects [NaN]. *)
Lemma equality_validator_rejects_NaN :
  equalityValidator (VNumber nan) (VNumber nan) root
  = Return (RMessage "Expected value to equal NaN but received NaN").
Proof. reflexivity. Qed.

(** ** The one-of validator *)

(** C5 (as the code has it): the one-of validator returns no error exactly
    when some allowed value is the same as the value under SameValueZero,
    that is, strictly equal to it or [NaN] together with it; otherwise it
    returns a pair with the given context. *)
Theorem one_of_validator_same_value_zero :
  forall toString allowedValues v c,
    (createOneOfValidator toString allowedValues v c = Return RUndefined <->
     exists a, In a allowedValues /\
               (strict_equal a v = true \/ (is_NaN a = true /\ is_NaN v = true)))
    /\ (exists r, createOneOfValidator toString allowedValues v c = Return r
                  /\ (r = RUndefined \/ exists m, r = RPair m c)).
Proof.
  intros toString allowedValues v c. rewrite <- includes_spec.
  unfold createOneOfValidator.
  destruct (includes allowedValues v); simpl; split.
  - now split.
  - exists RUndefined. split; [reflexivity | now left].
  - split; discriminate.
  - eexists. split; [reflexivity|]. right. now eexists.
Qed.

(** C5, as stated, fails at [NaN]: no element of [[NaN]] is strictly equal
    to [NaN], and yet the validator accepts it. *)
Lemma one_of_validator_accepts_NaN :
  existsb (fun a => strict_equal a (VNumber nan)) [VNumber nan] = false
  /\ oneOfValidator [VNumber nan] (VNumber nan) root = Return RUndefined.
Proof. split; reflexivity. Qed.

(** No coercion and no structural comparison: the string 1 is not the
    number 1, and two objects with equal contents are not the same object. *)
Example one_of_no_coercion :
  oneOfValidator [VNumber 1] (VString "1") root
  = Return (RPair ("Expected the value to be 1 but received "
                   ++ Utils.quote ++ "1" ++ Utils.quote) root).
Proof. reflexivity. Qed.

Example one_of_by_identity :
  oneOfValidator [VObject (fresh 1) [("a", VNumber 1)]]
                 (VObject (fresh 2) [("a", VNumber 1)]) root
  = Return (RPair "Expected the value to be {a: 1} but received {a: 1}" root).
Proof. reflexivity. Qed.


(** ** Induction on specifications *)

Section SpecInduction.

Variable P : ValidatorSpec -> Prop.
Hypothesis P_type : forall name, P (TypeName name).
Hypothesis P_function : forall f, P (ValidatorFn f).
Hypothesis P_shape :
  forall fields, Forall (fun kv => P (snd kv)) fields -> P (ShapeMap fields).
Hypothesis P_literal : forall v, P (Literal v).

Fixpoint ValidatorSpec_induction (s : ValidatorSpec) : P s :=
  match s with
  | TypeName name => P_type name
  | ValidatorFn f => P_function f
  | ShapeMap fields =>
      P_shape
        ((fix all (l : list (string * ValidatorSpec))
            : Forall (fun kv => P (snd kv)) l :=
            match l with
            | [] => Forall_nil _
            | kv :: rest =>
                Forall_cons kv (ValidatorSpec_induction (snd kv)) (all rest)
            end) fields)
  | Literal v => P_literal v
  end.

End SpecInduction.

(** ** What never throws *)

Section NoThrow.

Variable ensure : ValidatorSpec -> Validator.

Lemma shape_fields_no_throw :
  forall validators v c,
    Forall (fun kv => forall w k e, ensure (snd kv) w k <> Throw e) validators ->
    forall e, shape_fields ensure validators v c <> Throw e.
Proof.
  induction validators as [|[key s] rest IH]; intros v c H e; simpl;
    [discriminate|].
  inversion H as [|kv rest' Hs Hrest]; subst. simpl in Hs.
  destruct (ensure s (get v key) _) as [r|x|] eqn:E; simpl.
  - destruct (truthy r); [discriminate | now apply IH].
  - now elim (Hs _ _ _ E).
  - discriminate.
Qed.

Lemma array_items_no_throw :
  forall values validator i c,
    (forall w k e, ensure validator w k <> Throw e) ->
    forall e, array_items ensure validator i values c <> Throw e.
Proof.
  induction values as [|x rest IH]; intros validator i c H e; simpl;
    [discriminate|].
  destruct (ensure validator x _) as [r|y|] eqn:E; simpl.
  - destruct (truthy r); [discriminate | now apply IH].
  - now elim (H _ _ _ E).
  - discriminate.
Qed.

End NoThrow.

Lemma mapM_describe_returns :
  forall errors,
    Forall is_pair errors -> exists lines, mapM describe errors = Return lines.
Proof.
  induction errors as [|e rest IH]; intro H; simpl; [now eexists|].
  inversion H as [|e' rest' [m [k He]] Hrest]; subst.
  destruct (IH Hrest) as [lines Hl]. simpl. rewrite Hl. now eexists.
Qed.

Lemma ensure_no_throw :
  forall typeOf toString s,
    conforming s ->
    forall v c e, ensureValidator typeOf toString s v c <> Throw e.
Proof.
  intros typeOf toString s.
  induction s as [name|f|fields IH|x] using ValidatorSpec_induction;
    intros H v c e.
  - rewrite resolved_type_name. destruct (String.eqb (typeof v) name); discriminate.
  - inversion H as [|f' Hf| |]; subst. simpl. apply paired_no_throw. apply Hf.
  - inversion H as [| |fields' Hfields|]; subst.
    rewrite ensureValidator_shape. apply paired_no_throw. clear e. intro e.
    unfold createShapeValidator. rewrite resolved_type_name.
    destruct (String.eqb (typeof v) "object"); simpl; [|discriminate].
    destruct (strict_equal v VNull); [discriminate|].
    apply shape_fields_no_throw.
    clear -IH Hfields. induction fields as [|kv rest IHf]; constructor.
    + inversion IH; inversion Hfields; subst. auto.
    + inversion IH; inversion Hfields; subst. auto.
  - simpl. apply paired_no_throw. intro y. unfold createEqualityValidator.
    destruct (negb (strict_equal v x)); discriminate.
Qed.

Lemma union_alternatives_pairs :
  forall typeOf toString validators acc v c,
    Forall conforming validators ->
    Forall is_pair acc ->
    union_alternatives (ensureValidator typeOf toString) validators acc v c
    = Return None
    \/ union_alternatives (ensureValidator typeOf toString) validators acc v c
       = Diverge
    \/ exists errors,
         Forall is_pair errors
         /\ union_alternatives (ensureValidator typeOf toString) validators
                               acc v c
            = Return (Some errors).
Proof.
  intros typeOf toString validators.
  induction validators as [|s rest IH]; intros acc v c H Hacc; simpl.
  - right. right. now exists acc.
  - inversion H as [|s' rest' Hs Hrest]; subst.
    destruct (ensureValidator typeOf toString s v c) as [r|x|] eqn:E; simpl.
    + destruct (truthy r) eqn:Ht; simpl; [|now left].
      apply IH; [exact Hrest|].
      apply Forall_app. split; [exact Hacc|].
      constructor; [|constructor].
      exact (@resolved_failure typeOf toString s v c r (conj E Ht)).
    + now elim (@ensure_no_throw typeOf toString s Hs v c x).
    + right. now left.
Qed.

(** ** The union-of validator *)

Lemma mapM_describe_pairs :
  forall errors, mapM describe (map pair_of errors) = Return (map line_of errors).
Proof.
  induction errors as [|[m k] rest IH]; simpl; [reflexivity|].
  now rewrite IH.
Qed.

Lemma union_alternatives_throw :
  forall ensure before alternative after acc v c x,
    Forall (fun s => exists e, fails_with ensure s v c e) before ->
    ensure alternative v c = Throw x ->
    union_alternatives ensure (before ++ alternative :: after) acc v c
    = Throw x.
Proof.
  intros ensure before. induction before as [|s rest IH];
    intros alternative after acc v c x Hb Hx; simpl.
  - now rewrite Hx.
  - inversion Hb as [|s' rest' [e [Hs He]] Hrest]; subst.
    rewrite Hs. simpl. rewrite He. simpl. now apply IH.
Qed.

Lemma failures_are_pairs :
  forall typeOf toString validators errors v c,
    Forall2 (fun s e => fails_with (ensureValidator typeOf toString) s v c e)
            validators errors ->
    exists pairs, errors = map pair_of pairs.
Proof.
  intros typeOf toString validators errors v c H.
  induction H as [|s e rest errs Hf Hrest [pairs IH]].
  - now exists [].
  - destruct (resolved_failure Hf) as [m [k He]]. subst.
    now exists ((m, k) :: pairs).
Qed.

(** X10: when every alternative fails with a pair, the union reports, at its own
    context, the header followed by one line [path |> message] per
    alternative, in order. *)
Lemma union_of_validator_aggregates :
  forall typeOf toString validators errors v c,
    Forall2 (fun s e => fails_with (ensureValidator typeOf toString) s v c
                                   (pair_of e)) validators errors ->
    createUnionOfValidator typeOf toString validators v c
    = Return (RPair (union_header ++ String.concat nl (map line_of errors)) c).
Proof.
  intros typeOf toString validators errors v c H.
  unfold createUnionOfValidator.
  rewrite (@union_alternatives_all_fail _ validators (map pair_of errors) [] v c).
  - simpl. now rewrite mapM_describe_pairs.
  - clear -H. induction H; simpl; constructor; assumption.
Qed.

(** C10: the union of no alternatives rejects every value: it returns the
    header alone, with no line after it, paired with the context it was
    given. *)
Theorem union_of_nothing_fails :
  forall typeOf toString v c,
    createUnionOfValidator typeOf toString [] v c
    = Return (RPair ("Expected the value to pass one of the provided validators:"
                     ++ nl) c)
    /\ truthy (RPair ("Expected the value to pass one of the provided validators:"
                      ++ nl) c) = true.
Proof. intros; split; reflexivity. Qed.

(** C6: the union tries its alternatives in order, and the first one that
    does not fail decides: if it reports no error the union returns none, if
    it throws the union throws the same, in both cases whatever the
    alternatives after it would do; and when every alternative fails the
    union returns an error at its own context. *)
Theorem union_of_validator_short_circuits :
  forall typeOf toString before alternative after v c,
    Forall (fun s => exists e,
                fails_with (ensureValidator typeOf toString) s v c e) before ->
    (passes (ensureValidator typeOf toString) alternative v c ->
     createUnionOfValidator typeOf toString (before ++ alternative :: after) v c
     = Return RUndefined)
    /\ (forall x,
           ensureValidator typeOf toString alternative v c = Throw x ->
           createUnionOfValidator typeOf toString
                                  (before ++ alternative :: after) v c
           = Throw x)
    /\ (exists message,
           createUnionOfValidator typeOf toString before v c
           = Return (RPair message c)).
Proof.
  intros typeOf toString before alternative after v c Hb.
  unfold createUnionOfValidator. split; [|split].
  - intro Hp.
    now rewrite (@union_alternatives_first_pass _ before alternative after []
                   v c Hb Hp).
  - intros x Hx.
    now rewrite (@union_alternatives_throw _ before alternative after [] v c x
                   Hb Hx).
  - assert (H2 : exists errors,
               Forall2 (fun s e => fails_with (ensureValidator typeOf toString)
                                              s v c e) before errors).
    { clear -Hb. induction Hb as [|s rest [e He] Hrest [errors IH]].
      - now exists [].
      - exists (e :: errors). now constructor. }
    destruct H2 as [errors H2].
    destruct (failures_are_pairs H2) as [pairs ->].
    rewrite (@union_alternatives_all_fail _ before (map pair_of pairs) [] v c H2).
    simpl. rewrite mapM_describe_pairs. now eexists.
Qed.

Lemma union_of_validator_short_circuits_witness :
  (passes (ensureValidator Utils.typeOf Utils.toString) (TypeName "string")
          (VString "x") root ->
   unionOfValidator
     ([TypeName "number"; TypeName "boolean"]
        ++ TypeName "string" :: [ValidatorFn explode]) (VString "x") root
   = Return RUndefined)
  /\ (forall x,
         ensureValidator Utils.typeOf Utils.toString (TypeName "string")
                         (VString "x") root = Throw x ->
         unionOfValidator
           ([TypeName "number"; TypeName "boolean"]
              ++ TypeName "string" :: [ValidatorFn explode]) (VString "x") root
         = Throw x)
  /\ (exists message,
         unionOfValidator [TypeName "number"; TypeName "boolean"]
                          (VString "x") root
         = Return (RPair message root)).
Proof.
  apply (@union_of_validator_short_circuits Utils.typeOf Utils.toString
           [TypeName "number"; TypeName "boolean"] (TypeName "string")
           [ValidatorFn explode] (VString "x") root).
  repeat constructor; eexists; (split; reflexivity).
Defined.

(** The order shows: a throwing alternative after the first success is
    never run, one before it is. *)
Example union_of_validator_order :
  unionOfValidator [TypeName "number"; TypeName "string"; ValidatorFn explode]
                   (VString "x") root
  = Return RUndefined
  /\ unionOfValidator [TypeName "number"; ValidatorFn explode; TypeName "string"]
                      (VString "x") root
     = Throw (TypeError "must not be called").
Proof. split; reflexivity. Qed.

Lemma union_of_validator_aggregates_witness :
  unionOfValidator
    [ValidatorFn (oneOfValidator [VNumber 1]);
     ValidatorFn (arrayValidator (TypeName "number"))]
    (VNumber 2) (createContextPath "arg")
  = Return (RPair (union_header
                   ++ String.concat nl
                        (map line_of
                             [("Expected the value to be 1 but received 2",
                               createContextPath "arg");
                              ("Expected type array but received number",
                               createContextPath "arg")]))
                  (createContextPath "arg")).
Proof.
  apply (@union_of_validator_aggregates Utils.typeOf Utils.toString
           [ValidatorFn (oneOfValidator [VNumber 1]);
            ValidatorFn (arrayValidator (TypeName "number"))]
           [("Expected the value to be 1 but received 2",
             createContextPath "arg");
            ("Expected type array but received number",
             createContextPath "arg")]
           (VNumber 2) (createContextPath "arg")).
  repeat constructor.
Defined.

(** X12: an alternative that throws, reached after alternatives that failed,
    makes the union throw the same exception; no error is returned and the
    alternatives after it are not tried. *)
Theorem union_of_validator_propagates_throw :
  forall typeOf toString before alternative after v c x,
    Forall (fun s => exists e,
                fails_with (ensureValidator typeOf toString) s v c e) before ->
    ensureValidator typeOf toString alternative v c = Throw x ->
    createUnionOfValidator typeOf toString (before ++ alternative :: after) v c
    = Throw x.
Proof.
  intros typeOf toString before alternative after v c x Hb Hx.
  unfold createUnionOfValidator.
  now rewrite (@union_alternatives_throw _ before alternative after [] v c x Hb Hx).
Qed.

Lemma union_of_validator_propagates_throw_witness :
  unionOfValidator
    ([TypeName "number"] ++ ValidatorFn explode :: [TypeName "string"])
    (VString "x") root
  = Throw (TypeError "must not be called").
Proof.
  apply (@union_of_validator_propagates_throw Utils.typeOf Utils.toString
           [TypeName "number"] (ValidatorFn explode)
           [TypeName "string"] (VString "x") root).
  - repeat constructor. eexists. split; reflexivity.
  - reflexivity.
Defined.

Lemma union_alternatives_verdict :
  forall ensure validators acc v c,
    Forall (fun s => exists r, ensure s v c = Return r) validators ->
    (Exists (fun s => passes ensure s v c) validators
     /\ union_alternatives ensure validators acc v c = Return None)
    \/ (~ Exists (fun s => passes ensure s v c) validators
        /\ exists errors,
             union_alternatives ensure validators acc v c
             = Return (Some errors)).
Proof.
  intros ensure validators. induction validators as [|s rest IH];
    intros acc v c H.
  - right. split; [intro E; inversion E | now eexists].
  - inversion H as [|s' rest' [r Hr] Hrest]; subst. simpl. rewrite Hr. simpl.
    destruct (truthy r) eqn:Ht; simpl.
    + destruct (IH (acc ++ [r])%list v c Hrest) as [[E U]|[E U]].
      * left. split; [now apply Exists_cons_tl | exact U].
      * right. split; [|exact U].
        intro E'. inversion E' as [? ? [r' [Hr' Ht']]|]; subst.
        -- rewrite Hr in Hr'. injection Hr' as <-. congruence.
        -- now apply E.
    + left. split; [|reflexivity].
      apply Exists_cons_hd. now exists r.
Qed.

(** X13: when no alternative throws on the value, the union returns no error
    exactly when some alternative reports none. *)
Theorem union_of_validator_succeeds_iff :
  forall typeOf toString validators v c,
    Forall (fun s => exists r, ensureValidator typeOf toString s v c = Return r)
           validators ->
    (createUnionOfValidator typeOf toString validators v c = Return RUndefined
     <-> Exists (fun s => passes (ensureValidator typeOf toString) s v c)
                validators).
Proof.
  intros typeOf toString validators v c H.
  unfold createUnionOfValidator.
  destruct (@union_alternatives_verdict _ validators [] v c H)
    as [[E U]|[E [errors U]]]; rewrite U; simpl.
  - now split.
  - split; [|intro E'; now elim E].
    destruct (mapM describe errors); simpl; discriminate.
Qed.

Lemma union_of_validator_succeeds_iff_witness :
  unionOfValidator [TypeName "number"; Literal VNull] VNull root
  = Return RUndefined
  <-> Exists (fun s => passes (ensureValidator Utils.typeOf Utils.toString)
                         s VNull root)
             [TypeName "number"; Literal VNull].
Proof.
  apply (@union_of_validator_succeeds_iff Utils.typeOf Utils.toString
           [TypeName "number"; Literal VNull] VNull root).
  repeat constructor; eexists; reflexivity.
Defined.


(** ** Failures are returned, not thrown *)

Lemma type_names_all_fail :
  forall typeOf toString names v c,
    Forall (fun t => typeof v <> t) names ->
    Forall2 (fun s e => fails_with (ensureValidator typeOf toString) s v c e)
            (map TypeName names)
            (map pair_of (map (fun t => (type_message typeOf t v, c)) names)).
Proof.
  intros typeOf toString names v c H.
  induction H as [|t rest Ht Hrest IH]; simpl; constructor; [|exact IH].
  unfold fails_with. rewrite resolved_type_name.
  apply String.eqb_neq in Ht. rewrite Ht. now split.
Qed.

Lemma instance_of_class :
  forall v klass,
    is_class klass = true -> exists b, instance_of v klass = Return b.
Proof.
  intros v [| |b|x|s|id d|z|k name prototype|h props|h items] H;
    try discriminate H.
  simpl in H. subst prototype. simpl.
  destruct (header_of v); now eexists.
Qed.

(** C1 (as the code has it): built from a class, and from specifications
    whose validator functions do not throw, the validators of the seven
    constructors never throw, whatever the value and the context; in
    particular a union of type names that all fail returns the combined
    error, one line per name. *)
Theorem validators_never_throw :
  forall typeOf toString v c,
    (forall t e, createTypeValidator typeOf t v c <> Throw e)
    /\ (forall expected e,
           createEqualityValidator toString expected v c <> Throw e)
    /\ (forall klass e,
           is_class klass = true ->
           createInstanceOfValidator toString klass v c <> Throw e)
    /\ (forall validators e,
           Forall (fun kv => conforming (snd kv)) validators ->
           createShapeValidator typeOf toString validators v c <> Throw e)
    /\ (forall validator e,
           conforming validator ->
           createArrayValidator typeOf toString validator v c <> Throw e)
    /\ (forall allowedValues e,
           createOneOfValidator toString allowedValues v c <> Throw e)
    /\ (forall validators e,
           Forall conforming validators ->
           createUnionOfValidator typeOf toString validators v c <> Throw e)
    /\ (forall names,
           Forall (fun t => typeof v <> t) names ->
           createUnionOfValidator typeOf toString (map TypeName names) v c
           = Return (RPair (union_header
                            ++ String.concat nl
                                 (map (fun t => call_context c ++ " |> "
                                                ++ type_message typeOf t v)
                                      names)) c)).
Proof.
  intros typeOf toString v c. repeat split.
  - intros t e. unfold createTypeValidator.
    destruct (negb (String.eqb (typeof v) t)); discriminate.
  - intros expected e. unfold createEqualityValidator.
    destruct (negb (strict_equal v expected)); discriminate.
  - intros klass e H. unfold createInstanceOfValidator.
    destruct (instance_of_class v klass H) as [b Hb]. rewrite Hb. simpl.
    destruct (negb b); discriminate.
  - intros validators e H.
    intro E.
    apply (@ensure_no_throw typeOf toString (ShapeMap validators)
             (conforming_shape H) v c e).
    rewrite ensureValidator_shape. unfold paired. now rewrite E.
  - intros validator e H. unfold createArrayValidator.
    destruct (negb (isArray v)); [discriminate|].
    destruct (array_items (ensureValidator typeOf toString) validator 0
                          (elements v) c) as [r|x|] eqn:E; simpl.
    + destruct (truthy r); [discriminate|].
      destruct (extent v); [discriminate|].
      unfold array_stuck.
      destruct (ensureValidator typeOf toString validator _ _) as [r'|x|] eqn:E';
        simpl.
      * destruct (truthy r'); discriminate.
      * elim (@ensure_no_throw typeOf toString validator H _ _ x E').
      * discriminate.
    + elim (@array_items_no_throw (ensureValidator typeOf toString) (elements v)
              validator 0 c (@ensure_no_throw typeOf toString validator H) x).
      exact E.
    + discriminate.
  - intros allowedValues e. unfold createOneOfValidator.
    destruct (negb (includes allowedValues v)); discriminate.
  - intros validators e H. unfold createUnionOfValidator.
    destruct (@union_alternatives_pairs typeOf toString validators [] v c H
                (Forall_nil _)) as [E|[E|[errors [Hp E]]]]; rewrite E; simpl;
      try discriminate.
    destruct (mapM_describe_returns Hp) as [lines Hl]. rewrite Hl. discriminate.
  - intros names H. unfold createUnionOfValidator.
    rewrite (@union_alternatives_all_fail _ _ _ [] v c
               (@type_names_all_fail typeOf toString names v c H)).
    simpl. rewrite mapM_describe_pairs. rewrite map_map. reflexivity.
Qed.

Lemma validators_never_throw_witness :
  unionOfValidator (map TypeName ["string"; "boolean"]) (VNumber 42)
                   (createContextPath "arg")
  = Return (RPair (union_header
                   ++ "arg |> Expected type string but received number" ++ nl
                   ++ "arg |> Expected type boolean but received number")
                  (createContextPath "arg")).
Proof.
  apply (@validators_never_throw Utils.typeOf Utils.toString (VNumber 42)
           (createContextPath "arg")).
  repeat constructor; discriminate.
Defined.

(** C1, as stated, fails at the instance-of validator: built from a string
    instead of a class, it throws on every value. *)
Lemma instance_of_validator_throws :
  createInstanceOfValidator Utils.toString (VString "Date")
                            (VObject (fresh 1) []) root
  = Throw not_an_object.
Proof. reflexivity. Qed.

(** C2: when every resolved alternative fails, the failures are pairs and
    the union returns one error: the header, then one line made of the
    path and the message of each alternative's own error, in order, at the
    union's own context. *)
Theorem union_of_validator_combined_error :
  forall typeOf toString validators errors v c,
    Forall2 (fun s e => fails_with (ensureValidator typeOf toString) s v c e)
            validators errors ->
    exists pairs,
      errors = map pair_of pairs
      /\ createUnionOfValidator typeOf toString validators v c
         = Return (RPair (union_header
                          ++ String.concat nl (map line_of pairs)) c).
Proof.
  intros typeOf toString validators errors v c H.
  destruct (failures_are_pairs H) as [pairs ->].
  exists pairs. split; [reflexivity|].
  unfold createUnionOfValidator.
  rewrite (@union_alternatives_all_fail _ validators (map pair_of pairs) [] v c H).
  simpl. now rewrite mapM_describe_pairs.
Qed.

Lemma union_of_validator_combined_error_witness :
  exists pairs,
    [RPair "Expected the value to be 1 but received 2"
           (createContextPath "arg.kind");
     RPair "Expected type string but received object"
           (createContextPath "arg")]
    = map pair_of pairs
    /\ unionOfValidator
         [ShapeMap [("kind", ValidatorFn (oneOfValidator [VNumber 1]))];
          TypeName "string"]
         (VObject (fresh 1) [("kind", VNumber 2)]) (createContextPath "arg")
       = Return (RPair (union_header
                        ++ String.concat nl (map line_of pairs))
                       (createContextPath "arg")).
Proof.
  apply (@union_of_validator_combined_error Utils.typeOf Utils.toString
           [ShapeMap [("kind", ValidatorFn (oneOfValidator [VNumber 1]))];
            TypeName "string"]
           [RPair "Expected the value to be 1 but received 2"
                  (createContextPath "arg.kind");
            RPair "Expected type string but received object"
                  (createContextPath "arg")]
           (VObject (fresh 1) [("kind", VNumber 2)]) (createContextPath "arg")).
  repeat constructor.
Defined.

(** The combined error, written out. *)
Example union_of_type_names_example :
  unionOfValidator [TypeName "string"] (VNumber 42) root
  = Return (RPair (union_header
                   ++ " |> Expected type string but received number") root).
Proof. reflexivity. Qed.

(** ** The shape validator *)

Lemma field_context_path :
  forall c key, field_context c key = createContextPath (joined (call_context c) key).
Proof.
  intros [b] key. unfold field_context, extend_context, joined, call_context.
  simpl. now destruct (String.eqb b "").
Qed.

Lemma shape_validator_not_an_object :
  forall typeOf toString validators v c,
    typeof v <> "object" ->
    createShapeValidator typeOf toString validators v c
    = Return (RPair (type_message typeOf "object" v) c).
Proof.
  intros typeOf toString validators v c H.
  unfold createShapeValidator. rewrite resolved_type_name.
  apply String.eqb_neq in H. now rewrite H.
Qed.

Lemma shape_validator_null :
  forall typeOf toString validators c,
    createShapeValidator typeOf toString validators VNull c
    = Return (RPair "Expected value to be a non-null object but received null" c).
Proof. reflexivity. Qed.

Lemma shape_validator_fields :
  forall typeOf toString validators v c,
    typeof v = "object" -> v <> VNull ->
    createShapeValidator typeOf toString validators v c
    = shape_fields (ensureValidator typeOf toString) validators v c.
Proof.
  intros typeOf toString validators v c Ht Hn.
  unfold createShapeValidator. rewrite resolved_type_name, Ht. simpl.
  destruct v; try discriminate Ht; try reflexivity. now elim Hn.
Qed.

(** X1: on a non-null object the shape validator returns what the first failing
    field's validator returned, unchanged, that validator having been run on
    the field's value with the path extended by the key; the fields after it
    play no part. *)
Lemma shape_validator_first_failure :
  forall typeOf toString before key validator after v c e,
    typeof v = "object" -> v <> VNull ->
    Forall (fun kv => passes (ensureValidator typeOf toString) (snd kv)
                        (get v (fst kv)) (field_context c (fst kv))) before ->
    fails_with (ensureValidator typeOf toString) validator (get v key)
               (field_context c key) e ->
    createShapeValidator typeOf toString
                         (before ++ (key, validator) :: after) v c
    = Return e.
Proof.
  intros typeOf toString before key validator after v c e Ht Hn Hb Hf.
  rewrite (shape_validator_fields typeOf toString _ c Ht Hn).
  now apply shape_fields_first_failure.
Qed.

(** X2: a non-null object all of whose declared fields pass, each checked
    on the field's value with the path extended by its key, passes the
    shape validator; so does every non-null object for the empty mapping. *)
Lemma shape_validator_all_pass :
  forall typeOf toString validators v c,
    typeof v = "object" -> v <> VNull ->
    Forall (fun kv => passes (ensureValidator typeOf toString) (snd kv)
                        (get v (fst kv)) (field_context c (fst kv)))
           validators ->
    createShapeValidator typeOf toString validators v c = Return RUndefined.
Proof.
  intros typeOf toString validators v c Ht Hn H.
  rewrite (shape_validator_fields typeOf toString _ c Ht Hn).
  now apply shape_fields_all_pass.
Qed.

(** C7: on a non-null object the shape validator returns exactly the first
    field failure in key order: one pair, not an aggregate, produced by the
    failing field's validator run on the field's value with the path
    extended by the key; for a type-name field it is the type message at
    that path.  The fields after it play no part. *)
Theorem shape_validator_reports_first_failure :
  forall typeOf toString before key validator after v c e,
    typeof v = "object" -> v <> VNull ->
    Forall (fun kv => passes (ensureValidator typeOf toString) (snd kv)
                        (get v (fst kv)) (field_context c (fst kv))) before ->
    fails_with (ensureValidator typeOf toString) validator (get v key)
               (field_context c key) e ->
    createShapeValidator typeOf toString
                         (before ++ (key, validator) :: after) v c
    = Return e
    /\ field_context c key = createContextPath (joined (call_context c) key)
    /\ (exists m k, e = RPair m k)
    /\ (forall t,
           validator = TypeName t ->
           e = RPair (type_message typeOf t (get v key))
                     (createContextPath (joined (call_context c) key))).
Proof.
  intros typeOf toString before key validator after v c e Ht Hn Hb Hf.
  repeat split.
  - rewrite (shape_validator_fields typeOf toString _ c Ht Hn).
    now apply shape_fields_first_failure.
  - apply field_context_path.
  - exact (resolved_failure Hf).
  - intros t ->. destruct Hf as [Hf Hy]. rewrite resolved_type_name in Hf.
    rewrite field_context_path in Hf.
    destruct (String.eqb (typeof (get v key)) t).
    + injection Hf as <-. discriminate Hy.
    + now injection Hf as <-.
Qed.

Lemma shape_validator_reports_first_failure_witness :
  shapeValidator ([] ++ ("a", TypeName "number") :: [("b", TypeName "string")])
                 (VObject (fresh 1) [("a", VString "x"); ("b", VString "y")])
                 root
  = Return (RPair "Expected type number but received string"
                  (createContextPath "a"))
  /\ field_context root "a" = createContextPath (joined (call_context root) "a")
  /\ (exists m k,
         RPair "Expected type number but received string"
               (createContextPath "a") = RPair m k)
  /\ (forall t,
         TypeName "number" = TypeName t ->
         RPair "Expected type number but received string"
               (createContextPath "a")
         = RPair (type_message Utils.typeOf t
                    (get (VObject (fresh 1)
                                  [("a", VString "x"); ("b", VString "y")]) "a"))
                 (createContextPath (joined (call_context root) "a"))).
Proof.
  apply (@shape_validator_reports_first_failure Utils.typeOf Utils.toString
           [] "a" (TypeName "number") [("b", TypeName "string")]
           (VObject (fresh 1) [("a", VString "x"); ("b", VString "y")]) root
           (RPair "Expected type number but received string"
                  (createContextPath "a"))).
  - reflexivity.
  - discriminate.
  - constructor.
  - split; reflexivity.
Defined.

(** Both fields are wrong and only the first is reported; a throwing
    validator behind the failing field is never run. *)
Example shape_validator_first_only :
  shapeValidator [("a", TypeName "number"); ("b", TypeName "string")]
                 (VObject (fresh 1) [("a", VString "x"); ("b", VNumber 7)])
                 (createContextPath "arg")
  = Return (RPair "Expected type number but received string"
                  (createContextPath "arg.a"))
  /\ shapeValidator [("a", ValidatorFn (oneOfValidator [VNumber 1]));
                     ("b", ValidatorFn explode)]
                    (VObject (fresh 1) [("a", VNumber 2)]) root
     = Return (RPair "Expected the value to be 1 but received 2"
                     (createContextPath "a")).
Proof. split; reflexivity. Qed.

(** ** Shapes: declared and undeclared keys *)

Lemma shape_validator_first_failure_witness :
  shapeValidator
    ([("a", TypeName "string")]
       ++ ("b", ValidatorFn (oneOfValidator [VNumber 1]))
       :: [("c", ValidatorFn explode)])
    (VObject (fresh 1) [("a", VString "x"); ("b", VNumber 2)]) root
  = Return (RPair "Expected the value to be 1 but received 2"
                  (createContextPath "b")).
Proof.
  apply (@shape_validator_first_failure Utils.typeOf Utils.toString
           [("a", TypeName "string")] "b"
           (ValidatorFn (oneOfValidator [VNumber 1]))
           [("c", ValidatorFn explode)]
           (VObject (fresh 1) [("a", VString "x"); ("b", VNumber 2)]) root).
  - reflexivity.
  - discriminate.
  - repeat constructor. exists RUndefined. split; reflexivity.
  - split; reflexivity.
Defined.

Lemma shape_validator_all_pass_witness :
  shapeValidator [("a", TypeName "string"); ("b", Literal (VNumber 2))]
                 (VObject (fresh 1) [("a", VString "x"); ("b", VNumber 2)]) root
  = Return RUndefined.
Proof.
  apply (@shape_validator_all_pass Utils.typeOf Utils.toString
           [("a", TypeName "string"); ("b", Literal (VNumber 2))]
           (VObject (fresh 1) [("a", VString "x"); ("b", VNumber 2)]) root).
  - reflexivity.
  - discriminate.
  - repeat constructor; exists RUndefined; split; reflexivity.
Defined.

(** X3: a value that is not an object, and [null], are rejected before any
    field is looked at: the result does not depend on the mapping.  Both
    errors are pairs at the shape's own context, the first with the type
    message for object. *)
Theorem shape_validator_rejects_non_objects :
  forall typeOf toString validators v c,
    (typeof v <> "object" ->
     createShapeValidator typeOf toString validators v c
     = Return (RPair ("Expected type object but received " ++ typeOf v) c))
    /\ createShapeValidator typeOf toString validators VNull c
       = Return (RPair "Expected value to be a non-null object but received null"
                       c).
Proof.
  intros typeOf toString validators v c. split; [|reflexivity].
  apply shape_validator_not_an_object.
Qed.

Lemma shape_fields_agree :
  forall ensure validators v w c,
    (forall key, In key (map fst validators) -> get v key = get w key) ->
    shape_fields ensure validators v c = shape_fields ensure validators w c.
Proof.
  intros ensure validators v w c.
  induction validators as [|[k s] rest IH]; intro H; simpl; [reflexivity|].
  rewrite (H k (or_introl eq_refl)).
  rewrite IH; [reflexivity|].
  intros key Hin. apply H. now right.
Qed.

(** X4: the shape is open: two non-null objects that agree on every declared
    key get the same verdict, whatever other keys they carry. *)
Theorem shape_validator_ignores_undeclared_keys :
  forall typeOf toString validators v w c,
    typeof v = "object" -> v <> VNull ->
    typeof w = "object" -> w <> VNull ->
    (forall key, In key (map fst validators) -> get v key = get w key) ->
    createShapeValidator typeOf toString validators v c
    = createShapeValidator typeOf toString validators w c.
Proof.
  intros typeOf toString validators v w c Hv Hvn Hw Hwn H.
  rewrite (shape_validator_fields typeOf toString _ c Hv Hvn).
  rewrite (shape_validator_fields typeOf toString _ c Hw Hwn).
  now apply shape_fields_agree.
Qed.

Lemma shape_validator_ignores_undeclared_keys_witness :
  shapeValidator [("a", TypeName "number")]
                 (VObject (fresh 1) [("a", VNumber 1); ("extra", VBoolean true)])
                 root
  = shapeValidator [("a", TypeName "number")]
                   (VObject (fresh 2) [("a", VNumber 1)]) root.
Proof.
  apply (@shape_validator_ignores_undeclared_keys Utils.typeOf Utils.toString
           [("a", TypeName "number")]
           (VObject (fresh 1) [("a", VNumber 1); ("extra", VBoolean true)])
           (VObject (fresh 2) [("a", VNumber 1)]) root);
    try reflexivity; try discriminate.
  intros key [<-|[]]. reflexivity.
Defined.

(** X5: a declared key is required: when the property reads as
    [undefined], the field's validator is run on [undefined], so a
    type-name field other than undefined fails there, with the type message
    at the field's path (the fields before it having passed). *)
Theorem shape_validator_missing_key :
  forall typeOf toString before key t after v c,
    typeof v = "object" -> v <> VNull ->
    get v key = VUndefined ->
    t <> "undefined" ->
    Forall (fun kv => passes (ensureValidator typeOf toString) (snd kv)
                        (get v (fst kv)) (field_context c (fst kv))) before ->
    createShapeValidator typeOf toString
                         (before ++ (key, TypeName t) :: after) v c
    = Return (RPair ("Expected type " ++ t ++ " but received "
                     ++ typeOf VUndefined)
                    (createContextPath (joined (call_context c) key))).
Proof.
  intros typeOf toString before key t after v c Hv Hn Hk Ht Hb.
  rewrite (shape_validator_fields typeOf toString _ c Hv Hn).
  apply shape_fields_first_failure; [exact Hb|].
  assert (E : String.eqb "undefined" t = false).
  { apply String.eqb_neq. intro E. apply Ht. now symmetry. }
  unfold fails_with. rewrite Hk, resolved_type_name.
  change (typeof VUndefined) with "undefined". rewrite E.
  change (extend_context (createContextPath (call_context c)) key)
    with (field_context c key).
  rewrite field_context_path. now split.
Qed.

Lemma shape_validator_missing_key_witness :
  shapeValidator ([("a", TypeName "number")] ++ ("b", TypeName "string") :: [])
                 (VObject (fresh 1) [("a", VNumber 1)]) root
  = Return (RPair "Expected type string but received undefined"
                  (createContextPath "b")).
Proof.
  apply (@shape_validator_missing_key Utils.typeOf Utils.toString
           [("a", TypeName "number")] "b" "string" []
           (VObject (fresh 1) [("a", VNumber 1)]) root).
  - reflexivity.
  - discriminate.
  - reflexivity.
  - discriminate.
  - repeat constructor. exists RUndefined. split; reflexivity.
Defined.

(** ** The array validator *)

(** X8: a value that is not an array is rejected without the element spec
    being resolved or run: the error names the value's display kind and
    comes as a pair at the given context. *)
Lemma array_validator_not_an_array :
  forall typeOf toString validator v c,
    isArray v = false ->
    createArrayValidator typeOf toString validator v c
    = Return (RPair ("Expected type array but received " ++ typeOf v) c).
Proof.
  intros typeOf toString validator v c H.
  unfold createArrayValidator. now rewrite H.
Qed.

(** X6: on an array the array validator returns what the element validator
    returned at the first failing index, unchanged, the validator having
    been run with the path extended by that index in decimal; the elements
    after it play no part. *)
Lemma array_validator_first_failure :
  forall typeOf toString validator h before item after c e,
    Forall (fun jv => passes (ensureValidator typeOf toString) validator (snd jv)
                        (field_context c (index_string (fst jv))))
           (combine (seq 0 (length before)) before) ->
    fails_with (ensureValidator typeOf toString) validator item
               (field_context c (index_string (length before))) e ->
    createArrayValidator typeOf toString validator
                         (VArray h (before ++ item :: after)) c
    = Return e.
Proof.
  intros typeOf toString validator h before item after c e Hb Hf.
  unfold createArrayValidator. simpl.
  rewrite (@array_items_first_failure _ before item after validator 0 c e Hb Hf).
  simpl. destruct Hf as [_ Hy]. now rewrite Hy.
Qed.

(** X7: an array all of whose elements pass, each checked with the path
    extended by its index, passes the array validator; so does the empty
    array, for every element spec. *)
Lemma array_validator_all_pass :
  forall typeOf toString validator h values c,
    Forall (fun jv => passes (ensureValidator typeOf toString) validator (snd jv)
                        (field_context c (index_string (fst jv))))
           (combine (seq 0 (length values)) values) ->
    createArrayValidator typeOf toString validator (VArray h values) c
    = Return RUndefined.
Proof.
  intros typeOf toString validator h values c H.
  unfold createArrayValidator. simpl.
  now rewrite (@array_items_all_pass _ values validator 0 c H).
Qed.



(** At the root the path is the index alone. *)
Example array_validator_index_path :
  arrayValidator (TypeName "number")
                 (VArray (fresh 1) [VNumber 1; VNumber 2; VString "x"]) root
  = Return (RPair "Expected type number but received string"
                  (createContextPath "2")).
Proof. reflexivity. Qed.

(** An object with a numeric length is iterated like an array; a value
    without one is not an array. *)
Example array_validator_array_like :
  arrayValidator (TypeName "number")
                 (VObject (fresh 1) [("length", VNumber 2); ("0", VNumber 5)])
                 root
  = Return (RPair "Expected type number but received undefined"
                  (createContextPath "1"))
  /\ arrayValidator (TypeName "number")
                    (VObject (fresh 1) [("length", VNumber 1); ("0", VNumber 5)])
                    root
     = Return RUndefined
  /\ arrayValidator (TypeName "number") (VObject (fresh 1) []) root
     = Return (RPair "Expected type array but received object" root).
Proof. repeat split; reflexivity. Qed.

Lemma Forall_indexed :
  forall (P : value -> Prop) (Q : nat * value -> Prop) values i,
    (forall j x, P x -> Q (j, x)) ->
    Forall P values ->
    Forall Q (combine (seq i (length values)) values).
Proof.
  intros P Q values. induction values as [|x rest IH]; intros i HPQ H; simpl;
    constructor; inversion H; subst; auto.
Qed.

Lemma array_validator_first_failure_witness :
  arrayValidator (TypeName "number")
                 (VArray (fresh 1)
                         ([VNumber 1; VNumber 2] ++ VString "x" :: [VNull]))
                 root
  = Return (RPair "Expected type number but received string"
                  (createContextPath "2")).
Proof.
  apply (@array_validator_first_failure Utils.typeOf Utils.toString
           (TypeName "number") (fresh 1) [VNumber 1; VNumber 2] (VString "x")
           [VNull] root).
  - repeat constructor; exists RUndefined; split; reflexivity.
  - split; reflexivity.
Defined.

Lemma array_validator_all_pass_witness :
  arrayValidator (TypeName "number")
                 (VArray (fresh 1) [VNumber 1; VNumber 2]) root
  = Return RUndefined.
Proof.
  apply (@array_validator_all_pass Utils.typeOf Utils.toString
           (TypeName "number") (fresh 1) [VNumber 1; VNumber 2] root).
  repeat constructor; exists RUndefined; split; reflexivity.
Defined.

Lemma array_validator_not_an_array_witness :
  arrayValidator (TypeName "number") (VString "abc") root
  = Return (RPair "Expected type array but received string" root).
Proof.
  apply (@array_validator_not_an_array Utils.typeOf Utils.toString
           (TypeName "number") (VString "abc") root).
  reflexivity.
Defined.

(** X9: an array validator over a one-of validator reports the first
    element that is not allowed: the one-of message for that element, at
    the array's path joined with the element's index. *)
Theorem array_of_one_of_reports_first_stranger :
  forall typeOf toString allowedValues h before item after c,
    Forall (fun x => includes allowedValues x = true) before ->
    includes allowedValues item = false ->
    createArrayValidator typeOf toString
      (ValidatorFn (createOneOfValidator toString allowedValues))
      (VArray h (before ++ item :: after)) c
    = Return (RPair (one_of_message toString allowedValues item)
                    (createContextPath
                       (joined (call_context c)
                               (index_string (length before))))).
Proof.
  intros typeOf toString allowedValues h before item after c Hb Hi.
  unfold createArrayValidator. simpl.
  rewrite (@array_items_first_failure (ensureValidator typeOf toString)
             before item after
             (ValidatorFn (createOneOfValidator toString allowedValues)) 0 c
             (RPair (one_of_message toString allowedValues item)
                    (createContextPath
                       (joined (call_context c)
                               (index_string (length before)))))).
  - reflexivity.
  - apply Forall_indexed with (P := fun x => includes allowedValues x = true);
      [|exact Hb].
    intros j x Hx. exists RUndefined. simpl.
    unfold paired, createOneOfValidator. rewrite Hx. now split.
  - unfold fails_with. simpl. unfold paired, createOneOfValidator.
    rewrite Hi. simpl. split; [|reflexivity].
    unfold one_of_message, extend_context, joined, call_context. simpl.
    now destruct (String.eqb (base c) "").
Qed.

Lemma array_of_one_of_reports_first_stranger_witness :
  arrayValidator (ValidatorFn (oneOfValidator [VString "a"; VString "b"]))
                 (VArray (fresh 1)
                         ([VString "a"; VString "b"] ++ VString "c" :: [VNull]))
                 (createContextPath "tags")
  = Return (RPair (one_of_message Utils.toString [VString "a"; VString "b"]
                                  (VString "c"))
                  (createContextPath "tags.2")).
Proof.
  apply (@array_of_one_of_reports_first_stranger Utils.typeOf Utils.toString
           [VString "a"; VString "b"] (fresh 1) [VString "a"; VString "b"]
           (VString "c") [VNull] (createContextPath "tags")).
  - repeat constructor.
  - reflexivity.
Defined.


(** ** Membership and equality *)

Lemma one_of_validator_passes_iff :
  forall toString allowedValues v c,
    createOneOfValidator toString allowedValues v c = Return RUndefined
    <-> includes allowedValues v = true.
Proof.
  intros toString allowedValues v c. unfold createOneOfValidator.
  destruct (includes allowedValues v); simpl; split;
    try reflexivity; discriminate.
Qed.

Lemma append_assoc :
  forall s t u : string, (s ++ t) ++ u = s ++ t ++ u.
Proof.
  induction s as [|ch s IH]; intros t u; simpl; [reflexivity|].
  now rewrite IH.
Qed.

(** X14: the wording of the one-of failure: with one allowed value it reads
    to be X, with two or more to be one of X, Y, ..., the values rendered by
    toString and joined by a comma and a space; with no allowed value every
    value is rejected and nothing stands between be and but. *)
Theorem one_of_validator_wording :
  forall toString v c,
    createOneOfValidator toString [] v c
    = Return (RPair ("Expected the value to be  but received " ++ toString v) c)
    /\ (forall a,
           same_value_zero a v = false ->
           createOneOfValidator toString [a] v c
           = Return (RPair ("Expected the value to be " ++ toString a
                            ++ " but received " ++ toString v) c))
    /\ (forall a b rest,
           includes (a :: b :: rest) v = false ->
           createOneOfValidator toString (a :: b :: rest) v c
           = Return (RPair ("Expected the value to be one of " ++ toString a
                            ++ ", "
                            ++ String.concat ", " (map toString (b :: rest))
                            ++ " but received " ++ toString v) c)).
Proof.
  intros toString v c. split; [reflexivity|]. split.
  - intros a H. unfold createOneOfValidator, includes. simpl. rewrite H.
    reflexivity.
  - intros a b rest H. unfold createOneOfValidator. rewrite H.
    cbn [negb length Nat.ltb Nat.leb map String.concat].
    do 2 f_equal.
    change (String.concat ", " (toString a :: toString b :: map toString rest))
      with (toString a ++ ", "
            ++ String.concat ", " (toString b :: map toString rest)).
    now rewrite !append_assoc.
Qed.

(** X15: allowed values add up: a value passes the one-of validator of two
    sequences put together exactly when it passes the validator of one of
    them; order and repetition play no part. *)
Theorem one_of_validator_app :
  forall toString xs ys v c,
    createOneOfValidator toString (xs ++ ys) v c = Return RUndefined
    <-> createOneOfValidator toString xs v c = Return RUndefined
        \/ createOneOfValidator toString ys v c = Return RUndefined.
Proof.
  intros toString xs ys v c. rewrite !one_of_validator_passes_iff.
  unfold includes. rewrite existsb_app. apply orb_true_iff.
Qed.

Lemma SFeqb_sym :
  forall f g, SFeqb f g = SFeqb g f.
Proof.
  intros [s| s| |s m e] [t| t| |t n d]; unfold SFeqb; simpl;
    try reflexivity;
    try (destruct s, t; reflexivity);
    try (destruct s; reflexivity);
    try (destruct t; reflexivity).
  assert (Hm : Pos.compare_cont Eq m n = CompOpp (Pos.compare_cont Eq n m))
    by (symmetry; apply (Pos.compare_cont_antisym n m Eq)).
  rewrite (Z.compare_antisym d e), Hm.
  destruct s, t; try reflexivity;
    destruct (d ?= e)%Z; simpl; try reflexivity;
    destruct (Pos.compare_cont Eq n m); reflexivity.
Qed.

Lemma strict_equal_sym :
  forall a b, strict_equal a b = strict_equal b a.
Proof.
  intros a b; destruct a, b; simpl; try reflexivity.
  - now destruct b, b0.
  - rewrite !FloatAxioms.eqb_spec. apply SFeqb_sym.
  - apply String.eqb_sym.
  - apply Nat.eqb_sym.
  - apply Z.eqb_sym.
  - apply Nat.eqb_sym.
  - apply Nat.eqb_sym.
  - apply Nat.eqb_sym.
Qed.

Lemma equality_validator_passes_iff :
  forall toString x v c,
    createEqualityValidator toString x v c = Return RUndefined
    <-> strict_equal v x = true.
Proof.
  intros toString x v c. unfold createEqualityValidator.
  destruct (strict_equal v x); simpl; split; try reflexivity; discriminate.
Qed.

(** X16: the equality validator does not coerce: a value whose [typeof]
    differs from the expected value's is rejected, with the bare message. *)
Theorem equality_validator_no_coercion :
  forall toString x v c,
    typeof v <> typeof x ->
    createEqualityValidator toString x v c
    = Return (RMessage ("Expected value to equal " ++ toString x
                        ++ " but received " ++ toString v)).
Proof.
  intros toString x v c H. unfold createEqualityValidator.
  assert (E : strict_equal v x = false).
  { destruct v, x; simpl; try reflexivity; now elim H. }
  now rewrite E.
Qed.

Lemma equality_validator_no_coercion_witness :
  equalityValidator (VNumber 1) (VString "1") root
  = Return (RMessage ("Expected value to equal 1 but received "
                      ++ Utils.toString (VString "1"))).
Proof.
  apply (@equality_validator_no_coercion Utils.toString (VNumber 1)
           (VString "1") root).
  discriminate.
Defined.

(** X17: expected and actual can change places: the validator built from
    [x] accepts [v] exactly when the validator built from [v] accepts
    [x]. *)
Theorem equality_validator_symmetric :
  forall toString x v c,
    createEqualityValidator toString x v c = Return RUndefined
    <-> createEqualityValidator toString v x c = Return RUndefined.
Proof.
  intros toString x v c. rewrite !equality_validator_passes_iff.
  now rewrite strict_equal_sym.
Qed.

(** X18: the one-of validator of a single value accepts what the equality
    validator of that value accepts, and [NaN] when the value is [NaN]. *)
Theorem one_of_single_value_is_equality :
  forall toString x v c,
    createOneOfValidator toString [x] v c = Return RUndefined
    <-> createEqualityValidator toString x v c = Return RUndefined
        \/ (is_NaN x = true /\ is_NaN v = true).
Proof.
  intros toString x v c.
  rewrite one_of_validator_passes_iff, equality_validator_passes_iff.
  unfold includes. simpl. rewrite orb_false_r.
  rewrite same_value_zero_spec. now rewrite (strict_equal_sym x v).
Qed.

(** ** Type names *)

(** X19: a type name that [typeof] never produces (array, null, ...) is
    matched by no value: the type validator rejects everything. *)
Theorem type_validator_unknown_name :
  forall typeOf t v c,
    ~ In t ["undefined"; "object"; "boolean"; "number"; "string"; "symbol";
            "bigint"; "function"] ->
    createTypeValidator typeOf t v c
    = Return (RMessage ("Expected type " ++ t ++ " but received " ++ typeOf v)).
Proof.
  intros typeOf t v c H. unfold createTypeValidator.
  assert (E : String.eqb (typeof v) t = false).
  { apply String.eqb_neq. intro E. apply H. subst t.
    destruct v; simpl; tauto. }
  now rewrite E.
Qed.

Lemma type_validator_unknown_name_witness :
  createTypeValidator Utils.typeOf "array" (VArray (fresh 1) [VNumber 1]) root
  = Return (RMessage "Expected type array but received array").
Proof.
  apply (@type_validator_unknown_name Utils.typeOf "array"
           (VArray (fresh 1) [VNumber 1]) root).
  simpl. intros [E|[E|[E|[E|[E|[E|[E|[E|[]]]]]]]]]; discriminate E.
Defined.

(** Symbols and bigints have type names of their own. *)
Example type_validator_symbol_bigint :
  createTypeValidator Utils.typeOf "symbol" (VSymbol 1 None) root
  = Return RUndefined
  /\ createTypeValidator Utils.typeOf "bigint" (VBigInt 10) root
     = Return RUndefined.
Proof. split; reflexivity. Qed.

(** X20: the type name object is matched by [null], by plain objects and by
    arrays, and by nothing else. *)
Theorem type_validator_object :
  forall typeOf v c,
    createTypeValidator typeOf "object" v c = Return RUndefined
    <-> v = VNull
        \/ (exists h props, v = VObject h props)
        \/ (exists h items, v = VArray h items).
Proof.
  intros typeOf v c. unfold createTypeValidator.
  destruct v; simpl; split; intro H;
    try discriminate H;
    try reflexivity;
    try (destruct H as [H|[[? [? H]]|[? [? H]]]]; discriminate H).
  - now left.
  - right. left. now eexists; eexists.
  - right. right. now eexists; eexists.
Qed.

(** ** Instances *)

(** X21: the instance-of validator rejects every primitive value, whatever
    the class: its error is a pair at the given context. *)
Theorem instance_of_validator_rejects_primitives :
  forall toString k name prototype v c,
    header_of v = None ->
    createInstanceOfValidator toString (VFunction k name prototype) v c
    = Return (RPair ("Expected value to be an instance of "
                     ++ klass_name toString (VFunction k name prototype)
                     ++ " but received " ++ toString v) c).
Proof.
  intros toString k name prototype v c H.
  unfold createInstanceOfValidator, instance_of. now rewrite H.
Qed.

Lemma instance_of_validator_rejects_primitives_witness :
  createInstanceOfValidator Utils.toString
                            (VFunction (fresh 7) (Some "Date") true)
                            (VNumber 1) root
  = Return (RPair "Expected value to be an instance of Date but received 1" root).
Proof.
  apply (@instance_of_validator_rejects_primitives Utils.toString (fresh 7)
           (Some "Date") true (VNumber 1) root).
  reflexivity.
Defined.

(** X22: built from something that is not a function, the instance-of
    validator throws a [TypeError] on every value instead of returning an
    error. *)
Theorem instance_of_validator_needs_callable :
  forall toString klass v c,
    typeof klass <> "function" ->
    exists what,
      createInstanceOfValidator toString klass v c = Throw (TypeError what).
Proof.
  intros toString klass v c H. unfold createInstanceOfValidator.
  destruct klass; try (now elim H); simpl; eexists; reflexivity.
Qed.

Lemma instance_of_validator_needs_callable_witness :
  exists what,
    createInstanceOfValidator Utils.toString (VString "Date")
                              (VObject (fresh 1) []) root
    = Throw (TypeError what).
Proof.
  apply (@instance_of_validator_needs_callable Utils.toString (VString "Date")
           (VObject (fresh 1) []) root).
  discriminate.
Defined.

(** The class decides for objects: one whose chain holds the class's
    prototype passes, another is rejected with the pair; a function without
    an object prototype throws on an object. *)
Example instance_of_validator_objects :
  createInstanceOfValidator Utils.toString
                            (VFunction (fresh 7) (Some "Date") true)
                            (VObject (Header 1 [7; 0]) []) root
  = Return RUndefined
  /\ createInstanceOfValidator Utils.toString
                               (VFunction (fresh 7) (Some "Date") true)
                               (VObject (Header 1 [0]) []) root
     = Return (RPair "Expected value to be an instance of Date but received {}"
                     root)
  /\ createInstanceOfValidator Utils.toString
                               (VFunction (fresh 7) (Some "arrow") false)
                               (VObject (Header 1 [0]) []) root
     = Throw no_prototype.
Proof. repeat split; reflexivity. Qed.

(** ** Nested paths *)

(** The path of a nested failure is the route from the root to the failing
    leaf. *)
Example nested_path_example :
  shapeValidator
    [("a", ShapeMap [("b", ValidatorFn (arrayValidator (TypeName "number")))])]
    (VObject (fresh 1)
             [("a", VObject (fresh 2)
                            [("b", VArray (fresh 3) [VNumber 1; VString "x"])])])
    root
  = Return (RPair "Expected type number but received string"
                  (createContextPath "a.b.1")).
Proof. reflexivity. Qed.
